(** * Imagery gateway: a model of [main.py]

    The service has two routes.  [POST /get-image] validates a JSON body
    against the [BboxRequest] model, asks the imagery provider for one
    512x512 PNG rendering of the bounding box, stores it in
    [last_image.png] and streams it back.  [GET /download-image] serves
    that file as an attachment.

    Everything the handlers obtain from libraries (the provider round
    trip, the bounding-box constructor, the image encoder, the float
    coercion of the request model) is kept abstract in two interfaces,
    [Types] and [Libs]; the handlers themselves are transcribed line by
    line over an explicit process state. *)

From Stdlib Require Import Strings.String Strings.Ascii Strings.Byte ZArith List Lia.
From stdpp Require Import base option list gmap strings.
Import ListNotations.

Local Open Scope Z_scope.
Local Open Scope string_scope.

(** ** Python values the handlers manipulate *)

(** Exceptions deriving from [Exception]: FastAPI's [HTTPException], and
    everything else (class name and message). *)
Inductive PyExc : Type :=
  | HTTPException (status_code : Z) (detail : string)
  | PyError (cls : string) (message : string).

Definition ValueError : string -> PyExc := PyError "ValueError".
Definition IndexError : string -> PyExc := PyError "IndexError".
Definition RuntimeError : string -> PyExc := PyError "RuntimeError".

(** Python truthiness of an optional string: [None] and [''] are falsy. *)
Definition truthy (v : option string) : bool :=
  match v with
  | None => false
  | Some EmptyString => false
  | Some (String _ _) => true
  end.

(** ** The rendering scripts

    The two evalscripts, byte for byte; [dq] stands for the double quote. *)
Definition dq : string := String "034" EmptyString.

Definition evalscript_true_color : string :=
"
    //VERSION=3
    function setup() {
        return {
            input: [" +:+ dq +:+
"B04" +:+ dq +:+
", " +:+ dq +:+
"B03" +:+ dq +:+
", " +:+ dq +:+
"B02" +:+ dq +:+
"], // Красный, Зелёный, Синий каналы
            output: { bands: 3 }
        };
    }

    function evaluatePixel(sample) {
        return [2.5 * sample.B04, 2.5 * sample.B03, 2.5 * sample.B02];
    }
".

Definition evalscript_ndvi : string :=
"
    //VERSION=3
    // Этот скрипт визуализирует NDVI (Normalized Difference Vegetation Index)
    
    function setup() {
        return {
            input: [" +:+ dq +:+
"B04" +:+ dq +:+
", " +:+ dq +:+
"B08" +:+ dq +:+
"], // Красный и ближний инфракрасный каналы
            output: { bands: 3 }   // Выходное изображение RGB
        };
    }

    // Функция для применения цветовой карты к значению NDVI
    const ramp = [
        [ -0.2, 0xc1a48e ], // почва/пустыня - коричневый
        [ 0.0, 0xf0e0b2 ],  // очень низкая растительность - бежевый
        [ 0.2, 0x336600 ],  // средняя растительность - тёмно-зелёный
        [ 0.6, 0x00ff00 ],  // высокая растительность - ярко-зелёный
        [ 1.0, 0x00ff00 ]   // очень высокая растительность - ярко-зелёный
    ];

    const visualizer = new ColorRampVisualizer(ramp);

    function evaluatePixel(sample) {
        // Формула NDVI
        let ndvi = (sample.B08 - sample.B04) / (sample.B08 + sample.B04);
        
        // Возвращаем цвет в зависимости от значения NDVI
        return visualizer.process(ndvi);
    }
".

(** [EVALSCRIPTS = {...}] *)
Definition EVALSCRIPTS : gmap string string :=
  {[ "true_color" := evalscript_true_color; "ndvi" := evalscript_ndvi ]}.

Inductive CRS : Type := WGS84 | POP_WEB | UTM (zone : Z).

Inductive DataCollection : Type :=
  | SENTINEL2_L1C | SENTINEL2_L2A | SENTINEL1 | LANDSAT_OT_L1 | DEM.

Inductive MimeType : Type := TIFF | PNG | JPG | JSON_mime.

Record SHConfig : Type := mkSHConfig {
  sh_client_id : option string;
  sh_client_secret : option string
}.

Record InputData : Type := mkInputData {
  data_collection : DataCollection;
  time_interval : string * string
}.

Record OutputResponse : Type := mkOutputResponse {
  identifier : string;
  response_format : MimeType
}.

(** The opaque types of the libraries. *)
Class Types : Type := {
  Float : Type;     (* a Python float *)
  BBox : Type;      (* sentinelhub.BBox *)
  NDArray : Type;   (* numpy array returned by the provider *)
  Image : Type      (* PIL.Image.Image *)
}.

Section Model.
Context `{Ty : Types}.

(** A decoded JSON request body. *)
#[warnings="-register-all"]
Inductive JSON : Type :=
  | JNull
  | JBool (b : bool)
  | JNumber (x : Float)
  | JString (s : string)
  | JArray (items : list JSON)
  | JObject (fields : list (string * JSON)).

(** [class BboxRequest(BaseModel)].  [layer_type] is kept a string so that
    the handler can be read on its own; the [Literal] annotation is
    enforced by [BboxRequest_validate]. *)
Record BboxRequest : Type := mkBboxRequest {
  bbox : list Float;
  layer_type : string
}.

Record SentinelHubRequest : Type := mkSentinelHubRequest {
  evalscript : string;
  input_data : list InputData;
  responses : list OutputResponse;
  request_bbox : BBox;
  size : list Z;
  request_config : SHConfig
}.

(** The handlers' return values. *)
Record StreamingResponse : Type := mkStreamingResponse {
  content : list byte;
  streaming_media_type : string
}.

Record FileResponse : Type := mkFileResponse {
  path : string;
  filename : string;
  file_media_type : string
}.

(** The process: working-directory files, the module-level [config], what
    was printed, and the provider requests issued so far. *)
Record Process : Type := mkProcess {
  files : gmap string (list byte);
  config : SHConfig;
  stdout : list string;
  provider_log : list SentinelHubRequest
}.

(** What the libraries do. *)
Class Libs : Type := {
  (* pydantic's lax coercions to float *)
  str_to_float : string -> option Float;
  bool_to_float : bool -> option Float;
  (* str(e) for an HTTPException *)
  HTTPException_str : Z -> string -> string;
  (* sentinelhub.BBox(bbox=..., crs=...) *)
  BBox_init : list Float -> CRS -> PyExc + BBox;
  (* SentinelHubRequest.get_data(), which may depend on earlier traffic *)
  get_data : list SentinelHubRequest -> SentinelHubRequest -> PyExc + list NDArray;
  (* PIL.Image.fromarray *)
  Image_fromarray : NDArray -> PyExc + Image;
  (* PIL's encoder for a given format *)
  Image_encode : Image -> MimeType -> PyExc + list byte;
  (* opening a path for writing may fail (permissions, full disk) *)
  open_wb : gmap string (list byte) -> string -> option PyExc;
  (* what a save that raised leaves behind in the working directory *)
  torn_save : gmap string (list byte) -> string -> gmap string (list byte)
}.

Context `{L : Libs}.

Definition str (e : PyExc) : string :=
  match e with
  | HTTPException s d => HTTPException_str s d
  | PyError _ m => m
  end.

(** ** A state and exception monad

    A handler is a function of the process state that returns or raises;
    unlike a transaction, a raise keeps the effects made so far. *)
Definition Py (A : Type) : Type := Process -> (PyExc + A) * Process.

Definition ret {A} (a : A) : Py A := fun st => (inr a, st).
Definition raise {A} (e : PyExc) : Py A := fun st => (inl e, st).
Definition bind {A B} (m : Py A) (k : A -> Py B) : Py B :=
  fun st =>
    match m st with
    | (inr a, st') => k a st'
    | (inl e, st') => (inl e, st')
    end.
Definition try_except {A} (m : Py A) (h : PyExc -> Py A) : Py A :=
  fun st =>
    match m st with
    | (inr a, st') => (inr a, st')
    | (inl e, st') => h e st'
    end.
Definition lift {A} (r : PyExc + A) : Py A := fun st => (r, st).

Notation "x <~ m ;; k" := (bind m (fun x => k))
  (at level 100, m at next level, right associativity).
Notation "m ;;; k" := (bind m (fun _ => k))
  (at level 100, right associativity).

(** ** Effects the handlers use *)

Definition set_files (f : gmap string (list byte)) (st : Process) : Process :=
  {| files := f; config := config st; stdout := stdout st;
     provider_log := provider_log st |}.

(** [print(s)] *)
Definition print (s : string) : Py unit :=
  fun st =>
    (inr tt,
     {| files := files st; config := config st; stdout := stdout st ++ [s];
        provider_log := provider_log st |}).

(** Reading the module-level [config]. *)
Definition read_config : Py SHConfig := fun st => (inr (config st), st).

(** [sentinel_request.get_data()]: one round trip to the provider. *)
Definition SentinelHubRequest_get_data (r : SentinelHubRequest) : Py (list NDArray) :=
  fun st =>
    (get_data (provider_log st) r,
     {| files := files st; config := config st; stdout := stdout st;
        provider_log := provider_log st ++ [r] |}).

(** [xs[0]] *)
Definition getitem0 {A} (xs : list A) : Py A :=
  match xs with
  | x :: _ => ret x
  | [] => raise (IndexError "list index out of range")
  end.

(** [image.save(p)] for a path ending in [.png]: the file is opened for
    writing, the PNG encoding of the image is written to it. *)
Definition Image_save_path (image : Image) (p : string) : Py unit :=
  fun st =>
    match open_wb (files st) p with
    | Some e => (inl e, st)
    | None =>
        match Image_encode image PNG with
        | inr data => (inr tt, set_files (<[p := data]> (files st)) st)
        | inl e => (inl e, set_files (torn_save (files st) p) st)
        end
    end.

(** [buffer = io.BytesIO(); image.save(buffer, format=...); buffer.seek(0)] *)
Definition Image_save_buffer (image : Image) (format : MimeType) : Py (list byte) :=
  lift (Image_encode image format).

(** ** The handlers *)

(** [async def get_image(request: BboxRequest)], in two parts: first the
    statements of its [try] block, *)
Definition get_image_try (request : BboxRequest) : Py StreamingResponse :=
  sentinel_bbox <~ lift (BBox_init (bbox request) WGS84) ;;
  let selected_script := EVALSCRIPTS !! layer_type request in
  if negb (truthy selected_script)
  then raise (HTTPException 400 "Неверный тип слоя")
  else
    cfg <~ read_config ;;
    let sentinel_request :=
      {| evalscript := default "" selected_script;
         input_data :=
           [ {| data_collection := SENTINEL2_L1C;
                time_interval := ("2025-04-01", "2025-09-30") |} ];
         responses := [ {| identifier := "default"; response_format := PNG |} ];
         request_bbox := sentinel_bbox;
         size := [512; 512];
         request_config := cfg |} in
    data <~ SentinelHubRequest_get_data sentinel_request ;;
    image_data <~ getitem0 data ;;
    image <~ lift (Image_fromarray image_data) ;;
    Image_save_path image "last_image.png" ;;;
    buffer <~ Image_save_buffer image PNG ;;
    ret {| content := buffer; streaming_media_type := "image/png" |}.

(** then the handler itself, which runs them under
    [except Exception as e]. *)
Definition get_image (request : BboxRequest) : Py StreamingResponse :=
  try_except (get_image_try request)
    (fun e =>
       print ("Произошла ошибка: " +:+ str e) ;;;
       raise (HTTPException 500 (str e))).

(** [async def download_image()] *)
Definition download_image : Py FileResponse :=
  let file_path := "last_image.png" in
  ret {| path := file_path; filename := "sentinel_snapshot.png";
         file_media_type := "image/png" |}.

(** ** The framework around the handlers *)

(** Validation of the body against [BboxRequest]. *)
Fixpoint json_get (k : string) (fields : list (string * JSON)) : option JSON :=
  match fields with
  | [] => None
  | (k', v) :: rest =>
      match json_get k rest with
      | Some v' => Some v'
      | None => if String.eqb k k' then Some v else None
      end
  end.

Definition validate_float (v : JSON) : option Float :=
  match v with
  | JNumber x => Some x
  | JString s => str_to_float s
  | JBool b => bool_to_float b
  | JNull | JArray _ | JObject _ => None
  end.

(** [List[float]] *)
Definition validate_list_float (v : JSON) : option (list Float) :=
  match v with
  | JArray items => mapM validate_float items
  | _ => None
  end.

(** [Literal[...]] *)
Definition validate_literal (allowed : list string) (v : JSON) : option string :=
  match v with
  | JString s => if bool_decide (s ∈ allowed) then Some s else None
  | _ => None
  end.

Definition BboxRequest_validate (payload : JSON) : option BboxRequest :=
  match payload with
  | JObject fields =>
      b ← json_get "bbox" fields ≫= validate_list_float;
      t ← json_get "layer_type" fields ≫= validate_literal ["true_color"; "ndvi"];
      Some {| bbox := b; layer_type := t |}
  | _ => None
  end.

Inductive Body : Type :=
  | BodyBytes (data : list byte)
  | BodyDetail (detail : string)
  | BodyValidationErrors
  | BodyText (text : string).

Record HTTPResponse : Type := mkHTTPResponse {
  status : Z;
  content_type : string;
  content_disposition : option string;
  body : Body
}.

(** FastAPI answers a body that fails validation with 422; the
    application installs no handler of its own for that. *)
Definition validation_error_response : HTTPResponse :=
  {| status := 422; content_type := "application/json";
     content_disposition := None; body := BodyValidationErrors |}.

(** An [HTTPException] becomes a response with its status and detail;
    anything else reaching the server is a plain 500. *)
Definition exception_response (e : PyExc) : HTTPResponse :=
  match e with
  | HTTPException s d =>
      {| status := s; content_type := "application/json";
         content_disposition := None; body := BodyDetail d |}
  | PyError _ _ =>
      {| status := 500; content_type := "text/plain; charset=utf-8";
         content_disposition := None; body := BodyText "Internal Server Error" |}
  end.

Definition send_streaming (r : StreamingResponse) : HTTPResponse :=
  {| status := 200; content_type := streaming_media_type r;
     content_disposition := None; body := BodyBytes (content r) |}.

(** A [FileResponse] reads its file when it is sent; a missing file
    makes it raise [RuntimeError]. *)
Definition send_file (r : FileResponse) (st : Process) : HTTPResponse :=
  match files st !! path r with
  | Some data =>
      {| status := 200; content_type := file_media_type r;
         content_disposition :=
           Some ("attachment; filename=" +:+ dq +:+ filename r +:+ dq);
         body := BodyBytes data |}
  | None =>
      exception_response
        (RuntimeError ("File at path " +:+ path r +:+ " does not exist."))
  end.

(** [POST /get-image] *)
Definition post_get_image (payload : JSON) (st : Process) : HTTPResponse * Process :=
  match BboxRequest_validate payload with
  | None => (validation_error_response, st)
  | Some request =>
      match get_image request st with
      | (inr r, st') => (send_streaming r, st')
      | (inl e, st') => (exception_response e, st')
      end
  end.

(** [GET /download-image] *)
Definition get_download_image (st : Process) : HTTPResponse * Process :=
  match download_image st with
  | (inr r, st') => (send_file r st', st')
  | (inl e, st') => (exception_response e, st')
  end.

(** The requests a process serves during its life. *)
Inductive Call : Type :=
  | PostGetImage (payload : JSON)
  | GetDownloadImage.

Definition serve (c : Call) (st : Process) : HTTPResponse * Process :=
  match c with
  | PostGetImage payload => post_get_image payload st
  | GetDownloadImage => get_download_image st
  end.

Fixpoint serve_all (cs : list Call) (st : Process) : list HTTPResponse * Process :=
  match cs with
  | [] => ([], st)
  | c :: cs' =>
      let '(r, st') := serve c st in
      let '(rs, st'') := serve_all cs' st' in
      (r :: rs, st'')
  end.

(** ** Start-up: the module-level statements *)

(** [load_dotenv()] adds the variables of the [.env] file that the
    environment does not already define. *)
Definition load_dotenv (environ dotenv : gmap string string) : gmap string string :=
  environ ∪ dotenv.

Definition os_getenv (environ : gmap string string) (k : string) : option string :=
  environ !! k.

Definition startup (environ dotenv : gmap string string)
    (cwd : gmap string (list byte)) : PyExc + Process :=
  let environ := load_dotenv environ dotenv in
  let SH_CLIENT_ID := os_getenv environ "ClientID" in
  let SH_CLIENT_SECRET := os_getenv environ "ClientSecret" in
  if negb (truthy SH_CLIENT_ID) || negb (truthy SH_CLIENT_SECRET)
  then inl (ValueError "Пожалуйста, укажите SH_CLIENT_ID и SH_CLIENT_SECRET.")
  else
    inr {| files := cwd;
           config := {| sh_client_id := SH_CLIENT_ID;
                        sh_client_secret := SH_CLIENT_SECRET |};
           stdout := [];
           provider_log := [] |}.

End Model.

(** ** A small instance of the libraries

    Floats are integers, an image is its pixel bytes, the encoder
    prefixes a marker byte, the bounding-box constructor accepts exactly
    four coordinates, and the provider answers the first request of a
    process and refuses the following ones. *)
Definition demo_types : Types :=
  {| Float := Z; BBox := list Z; NDArray := list byte; Image := list byte |}.

Definition demo_BBox_init (l : list Z) (crs : CRS) : PyExc + list Z :=
  if (length l =? 4)%nat then inr l
  else inl (PyError "TypeError" "Expected a valid list or tuple representation of a bbox").

Definition demo_get_data (history : list (@SentinelHubRequest demo_types))
    (r : @SentinelHubRequest demo_types) : PyExc + list (list byte) :=
  match history with
  | [] => inr [[x01; x02; x03]]
  | _ :: _ => inl (PyError "DownloadFailedException" "429 Too Many Requests")
  end.

Definition demo_libs : @Libs demo_types :=
  @Build_Libs demo_types
    (fun _ => None)                      (* str_to_float *)
    (fun _ => None)                      (* bool_to_float *)
    (fun _ d => d)                       (* HTTPException_str *)
    demo_BBox_init
    demo_get_data
    (fun a => inr a)                     (* Image_fromarray *)
    (fun img _ => inr (x89 :: img))      (* Image_encode *)
    (fun _ _ => None)                    (* open_wb *)
    (fun f p => delete p f).             (* torn_save *)

Definition demo_environ : gmap string string :=
  {[ "ClientID" := "demo-id"; "ClientSecret" := "demo-secret" ]}.

Definition demo_process : @Process demo_types :=
  {| files := ∅;
     config := {| sh_client_id := Some "demo-id";
                  sh_client_secret := Some "demo-secret" |};
     stdout := [];
     provider_log := [] |}.

Definition demo_request (coords : list Z) (layer : string) : @BboxRequest demo_types :=
  {| bbox := coords : list (@Float demo_types); layer_type := layer |}.

Definition demo_body (coords : list Z) (layer : string) : @JSON demo_types :=
  JObject [("bbox", JArray (map (fun z => JNumber (z : @Float demo_types)) coords));
           ("layer_type", JString layer)].

(** The process after one successful render. *)
Definition demo_rendered : @Process demo_types :=
  snd (post_get_image (L:=demo_libs) (demo_body [0; 0; 1; 1] "true_color")
         demo_process).

(** A body whose [bbox] holds strings and a null. *)
Definition demo_non_numeric : @JSON demo_types :=
  JObject [("bbox", JArray [JString "west"; JNull; JNumber (1 : @Float demo_types);
                            JNumber (1 : @Float demo_types)]);
           ("layer_type", JString "true_color")].

(** A provider that always answers, with data that depends on the
    traffic so far. *)
Definition demo_get_data_steady (history : list (@SentinelHubRequest demo_types))
    (r : @SentinelHubRequest demo_types) : PyExc + list (list byte) :=
  match history with
  | [] => inr [[x01; x02; x03]]
  | _ :: _ => inr [[x04; x05]; [x06]]
  end.

Definition demo_libs_steady : @Libs demo_types :=
  @Build_Libs demo_types
    (fun _ => None)
    (fun _ => None)
    (fun _ d => d)
    demo_BBox_init
    demo_get_data_steady
    (fun a => inr a)
    (fun img _ => inr (x89 :: img))
    (fun _ _ => None)
    (fun f p => delete p f).

(** A working directory left by an earlier process. *)
Definition demo_cwd : gmap string (list byte) :=
  {[ "last_image.png" := [x89; x07]; "notes.txt" := [x41] ]}.

Definition demo_restarted : @Process demo_types :=
  {| files := demo_cwd;
     config := {| sh_client_id := Some "demo-id";
                  sh_client_secret := Some "demo-secret" |};
     stdout := [];
     provider_log := [] |}.

(** The same libraries with a request model that, like a lax float
    field, reads the strings "0" and "1" and the booleans as numbers. *)
Definition demo_str_to_float (s : string) : option Z :=
  if String.eqb s "0" then Some 0
  else if String.eqb s "1" then Some 1
  else None.

Definition demo_libs_lax : @Libs demo_types :=
  @Build_Libs demo_types
    demo_str_to_float
    (fun b : bool => Some (if b then 1 else 0))
    (fun _ d => d)
    demo_BBox_init
    demo_get_data
    (fun a => inr a)
    (fun img _ => inr (x89 :: img))
    (fun _ _ => None)
    (fun f p => delete p f).

(** A body whose [bbox] holds four strings. *)
Definition demo_string_bbox : @JSON demo_types :=
  JObject [("bbox", JArray [JString "0"; JString "0"; JString "1"; JString "1"]);
           ("layer_type", JString "true_color")].

(** The request [get_image] hands to the provider for a bounding box, a
    script and a configuration: everything else in it is constant. *)
Definition provider_request `{Ty : Types} (cfg : SHConfig) (b : BBox)
    (script : string) : SentinelHubRequest :=
  {| evalscript := script;
     input_data :=
       [ {| data_collection := SENTINEL2_L1C;
            time_interval := ("2025-04-01", "2025-09-30") |} ];
     responses := [ {| identifier := "default"; response_format := PNG |} ];
     request_bbox := b;
     size := [512; 512];
     request_config := cfg |}.

(** The [layer_type] member of a request body, if the body is an object
    that has one. *)
Definition body_layer_type `{Ty : Types} (payload : JSON) : option JSON :=
  match payload with
  | JObject fields => json_get "layer_type" fields
  | _ => None
  end.

(** The [bbox] member of a request body. *)
Definition body_bbox `{Ty : Types} (payload : JSON) : option JSON :=
  match payload with
  | JObject fields => json_get "bbox" fields
  | _ => None
  end.

(** A JSON value that is [null], an array or an object: no float
    coercion applies to it. *)
Definition json_null_or_compound `{Ty : Types} (v : JSON) : Prop :=
  match v with
  | JNull | JArray _ | JObject _ => True
  | JBool _ | JNumber _ | JString _ => False
  end.

(** The failures of the library calls made by the [try] block of
    [get_image], in the order the block makes them: [library_failure
    request st e] when, started in [st], the first call that raises
    raises [e]. *)
Inductive library_failure `{Ty : Types} `{L : !Libs}
    (request : BboxRequest) (st : Process) : PyExc -> Prop :=
  | bbox_failure e :
      BBox_init (bbox request) WGS84 = inl e ->
      library_failure request st e
  | provider_failure b script e :
      BBox_init (bbox request) WGS84 = inr b ->
      EVALSCRIPTS !! layer_type request = Some script ->
      get_data (provider_log st) (provider_request (config st) b script) = inl e ->
      library_failure request st e
  | provider_empty b script :
      BBox_init (bbox request) WGS84 = inr b ->
      EVALSCRIPTS !! layer_type request = Some script ->
      get_data (provider_log st) (provider_request (config st) b script) = inr [] ->
      library_failure request st (IndexError "list index out of range")
  | decode_failure b script image_data rest e :
      BBox_init (bbox request) WGS84 = inr b ->
      EVALSCRIPTS !! layer_type request = Some script ->
      get_data (provider_log st) (provider_request (config st) b script)
        = inr (image_data :: rest) ->
      Image_fromarray image_data = inl e ->
      library_failure request st e
  | write_failure b script image_data rest image e :
      BBox_init (bbox request) WGS84 = inr b ->
      EVALSCRIPTS !! layer_type request = Some script ->
      get_data (provider_log st) (provider_request (config st) b script)
        = inr (image_data :: rest) ->
      Image_fromarray image_data = inr image ->
      open_wb (files st) "last_image.png" = Some e ->
      library_failure request st e
  | encode_failure b script image_data rest image e :
      BBox_init (bbox request) WGS84 = inr b ->
      EVALSCRIPTS !! layer_type request = Some script ->
      get_data (provider_log st) (provider_request (config st) b script)
        = inr (image_data :: rest) ->
      Image_fromarray image_data = inr image ->
      open_wb (files st) "last_image.png" = None ->
      Image_encode image PNG = inl e ->
      library_failure request st e.

(** An environment variable that is unset or set to the empty string. *)
Definition missing_or_empty (v : option string) : Prop :=
  v = None \/ v = Some "".

(** The number of POST /get-image requests among the calls served. *)
Fixpoint count_posts `{Ty : Types} (cs : list Call) : nat :=
  match cs with
  | [] => 0%nat
  | PostGetImage _ :: cs' => S (count_posts cs')
  | GetDownloadImage :: cs' => count_posts cs'
  end.

(** [print] seen as a state change. *)
Definition printed `{Ty : Types} (line : string) (st : Process) : Process :=
  {| files := files st; config := config st;
     stdout := (stdout st ++ [line])%list; provider_log := provider_log st |}.

(** * Properties *)

Section Properties.
Context {Ty : Types} {L : @Libs Ty}.

Implicit Types (request : BboxRequest) (st : Process) (e : PyExc).

(** ** The script table *)

Lemma EVALSCRIPTS_true_color :
  EVALSCRIPTS !! "true_color" = Some evalscript_true_color.
Proof. unfold EVALSCRIPTS. by rewrite lookup_insert_eq. Qed.

Lemma EVALSCRIPTS_ndvi : EVALSCRIPTS !! "ndvi" = Some evalscript_ndvi.
Proof.
  unfold EVALSCRIPTS.
  rewrite lookup_insert_ne by discriminate.
  by rewrite lookup_singleton_eq.
Qed.

Lemma EVALSCRIPTS_lookup_Some k script :
  EVALSCRIPTS !! k = Some script ->
  (k = "true_color" /\ script = evalscript_true_color) \/
  (k = "ndvi" /\ script = evalscript_ndvi).
Proof.
  unfold EVALSCRIPTS. intros H.
  apply lookup_insert_Some in H as [[<- <-]|[_ H]]; [by left|].
  apply lookup_singleton_Some in H as [<- <-]. by right.
Qed.

Lemma EVALSCRIPTS_truthy k script :
  EVALSCRIPTS !! k = Some script -> truthy (Some script) = true.
Proof.
  intros H. by destruct (EVALSCRIPTS_lookup_Some _ _ H) as [[_ ->]|[_ ->]].
Qed.

Lemma truthy_false (v : option string) :
  truthy v = false <-> missing_or_empty v.
Proof.
  unfold missing_or_empty. destruct v as [[|c s]|]; simpl; split; intros H;
    try done; auto; by destruct H.
Qed.

(** ** The [try] block, step by step *)

Ltac unfold_py :=
  unfold get_image_try, bind, lift, raise, ret, read_config,
    SentinelHubRequest_get_data, getitem0, Image_save_path,
    Image_save_buffer, set_files in *.

(** A run of the block that returns went through every step. *)
Lemma get_image_try_ok request st r st' :
  get_image_try request st = (inr r, st') ->
  exists sentinel_bbox script image_data rest image,
    BBox_init (bbox request) WGS84 = inr sentinel_bbox /\
    EVALSCRIPTS !! layer_type request = Some script /\
    get_data (provider_log st) (provider_request (config st) sentinel_bbox script)
      = inr (image_data :: rest) /\
    Image_fromarray image_data = inr image /\
    open_wb (files st) "last_image.png" = None /\
    Image_encode image PNG = inr (content r) /\
    streaming_media_type r = "image/png" /\
    st' = {| files := <["last_image.png" := content r]> (files st);
             config := config st;
             stdout := stdout st;
             provider_log :=
               provider_log st ++ [provider_request (config st) sentinel_bbox script] |}.
Proof.
  unfold_py. intros H.
  destruct (BBox_init (bbox request) WGS84) as [e|sentinel_bbox] eqn:Hbbox;
    [discriminate|].
  destruct (EVALSCRIPTS !! layer_type request) as [script|] eqn:Hscript;
    [|discriminate].
  rewrite (EVALSCRIPTS_truthy _ _ Hscript) in H. simpl in H.
  fold (provider_request (config st) sentinel_bbox script) in H.
  destruct (get_data (provider_log st) _) as [e|[|image_data rest]] eqn:Hdata;
    simpl in H; try discriminate.
  destruct (Image_fromarray image_data) as [e|image] eqn:Himage;
    simpl in H; [discriminate|].
  destruct (open_wb (files st) "last_image.png") as [e|] eqn:Hopen;
    simpl in H; [discriminate|].
  destruct (Image_encode image PNG) as [e|data] eqn:Henc;
    simpl in H; [discriminate|].
  injection H as <- <-. simpl.
  exists sentinel_bbox, script, image_data, rest, image. done.
Qed.

(** The block talks to the provider at most once, whatever happens. *)
Lemma get_image_try_provider_log request st :
  provider_log (snd (get_image_try request st)) = provider_log st \/
  exists r, provider_log (snd (get_image_try request st)) = (provider_log st ++ [r])%list.
Proof.
  unfold_py.
  destruct (BBox_init (bbox request) WGS84) as [e|sentinel_bbox]; [by left|].
  destruct (negb (truthy (EVALSCRIPTS !! layer_type request))); [by left|].
  simpl. right. eexists.
  destruct (get_data (provider_log st) _) as [e|[|image_data rest]];
    simpl; try reflexivity.
  destruct (Image_fromarray image_data) as [e|image]; simpl; [reflexivity|].
  destruct (open_wb (files st) "last_image.png"); simpl; [reflexivity|].
  destruct (Image_encode image PNG); reflexivity.
Qed.

(** Nothing in the block prints or touches the configuration. *)
Lemma get_image_try_frame request st :
  config (snd (get_image_try request st)) = config st /\
  stdout (snd (get_image_try request st)) = stdout st.
Proof.
  unfold_py.
  destruct (BBox_init (bbox request) WGS84) as [e|sentinel_bbox]; [done|].
  destruct (negb (truthy (EVALSCRIPTS !! layer_type request))); [done|].
  simpl.
  destruct (get_data (provider_log st) _) as [e|[|image_data rest]];
    simpl; try done.
  destruct (Image_fromarray image_data) as [e|image]; simpl; [done|].
  destruct (open_wb (files st) "last_image.png"); simpl; [done|].
  destruct (Image_encode image PNG); done.
Qed.

(** What the handler does with the outcome of the block. *)
Lemma get_image_returns request st r st' :
  get_image request st = (inr r, st') <-> get_image_try request st = (inr r, st').
Proof.
  unfold get_image, try_except, bind, print, raise.
  destruct (get_image_try request st) as [[e|r0] st0]; simpl; split; intros H;
    done.
Qed.

Lemma get_image_raises request st e st1 :
  get_image_try request st = (inl e, st1) ->
  get_image request st =
    (inl (HTTPException 500 (str e)),
     {| files := files st1; config := config st1;
        stdout := stdout st1 ++ ["Произошла ошибка: " +:+ str e];
        provider_log := provider_log st1 |}).
Proof.
  intros H. unfold get_image, try_except, bind, print, raise. by rewrite H.
Qed.

(** The handler never lets an exception other than its own 500 out. *)
Lemma get_image_outcome request st :
  (exists r st', get_image request st = (inr r, st')) \/
  (exists e st', get_image request st = (inl (HTTPException 500 (str e)), st')).
Proof.
  destruct (get_image_try request st) as [[e|r] st1] eqn:H.
  - right. eexists _, _. by apply get_image_raises.
  - left. exists r, st1. by apply get_image_returns.
Qed.

Lemma get_image_config request st :
  config (snd (get_image request st)) = config st.
Proof.
  pose proof (get_image_try_frame request st) as [Hc _].
  unfold get_image, try_except, bind, print, raise.
  destruct (get_image_try request st) as [[e|r] st1]; done.
Qed.

(** A run of the handler that returns has stored what it returns. *)
Lemma get_image_stored request st r st' :
  get_image request st = (inr r, st') ->
  files st' = <["last_image.png" := content r]> (files st).
Proof.
  intros H. apply get_image_returns, get_image_try_ok in H
    as (b & script & d & rest & image & _ & _ & _ & _ & _ & _ & _ & ->).
  reflexivity.
Qed.

(** ** Validation of the request body *)

Lemma BboxRequest_validate_Some payload request :
  BboxRequest_validate payload = Some request ->
  exists items,
    body_bbox payload = Some (JArray items) /\
    mapM validate_float items = Some (bbox request) /\
    body_layer_type payload = Some (JString (layer_type request)) /\
    (layer_type request = "true_color" \/ layer_type request = "ndvi").
Proof.
  unfold BboxRequest_validate, body_bbox, body_layer_type.
  destruct payload as [| | | |?|fields]; try discriminate.
  destruct (json_get "bbox" fields) as [[| | | |items|?]|]; try discriminate.
  simpl. destruct (mapM validate_float items) as [coords|] eqn:Hcoords;
    [|discriminate].
  destruct (json_get "layer_type" fields) as [[| | |name| |]|]; try discriminate.
  simpl. case_bool_decide as Hin; [|discriminate].
  intros [= <-]. exists items. simpl. repeat split; try done.
  apply elem_of_cons in Hin as [Hin|Hin]; [by left|].
  apply list_elem_of_singleton in Hin. by right.
Qed.

Lemma BboxRequest_validate_layer payload request :
  BboxRequest_validate payload = Some request ->
  exists script, EVALSCRIPTS !! layer_type request = Some script.
Proof.
  intros H. apply BboxRequest_validate_Some in H as (_ & _ & _ & _ & [-> | ->]).
  - eexists. apply EVALSCRIPTS_true_color.
  - eexists. apply EVALSCRIPTS_ndvi.
Qed.

(** ** The claims *)

(** C9. Once the body has passed the [BboxRequest] model, the response of
    POST /get-image has status 200 or 500 and never 400: the handler
    either returns, or raises its own [HTTPException] 500.  In
    particular, a handler run that reaches the "no script selected"
    branch has its [HTTPException] 400 caught by the [except Exception]
    clause and turned into a 500 whose detail is the string of that
    exception. *)
Theorem validated_request_status_200_or_500 payload request st :
  BboxRequest_validate payload = Some request ->
  (status (fst (post_get_image payload st)) = 200 \/
   status (fst (post_get_image payload st)) = 500) /\
  status (fst (post_get_image payload st)) <> 400 /\
  (forall request' st' sentinel_bbox,
     BBox_init (bbox request') WGS84 = inr sentinel_bbox ->
     EVALSCRIPTS !! layer_type request' = None ->
     fst (get_image request' st') =
       inl (HTTPException 500 (str (HTTPException 400 "Неверный тип слоя")))).
Proof.
  intros Hvalid. unfold post_get_image. rewrite Hvalid.
  assert (status (fst (match get_image request st with
                       | (inr r, st') => (send_streaming r, st')
                       | (inl e, st') => (exception_response e, st')
                       end)) = 200 \/
          status (fst (match get_image request st with
                       | (inr r, st') => (send_streaming r, st')
                       | (inl e, st') => (exception_response e, st')
                       end)) = 500) as Hstatus.
  { destruct (get_image_outcome request st) as [(r & st' & ->)|(e & st' & ->)];
      simpl; auto. }
  split; [exact Hstatus|]. split; [destruct Hstatus as [-> | ->]; lia|].
  intros request' st' sentinel_bbox Hbbox Hscript.
  erewrite get_image_raises; [reflexivity|].
  unfold_py. rewrite Hbbox, Hscript. reflexivity.
Qed.

(** C5. Whatever library call of the render fails first (bounding-box
    construction, the provider round trip, an empty provider answer,
    decoding, opening or encoding the file), [get_image] raises
    [HTTPException] 500 whose detail is [str] of that failure, which the
    framework sends as status 500 with that detail; the failure is
    printed once, the configuration is untouched, and the provider has
    been contacted at most once: nothing is retried or recovered. *)
Theorem library_failure_is_500 request st e :
  library_failure request st e ->
  exists st',
    get_image request st = (inl (HTTPException 500 (str e)), st') /\
    exception_response (HTTPException 500 (str e)) =
      {| status := 500; content_type := "application/json";
         content_disposition := None; body := BodyDetail (str e) |} /\
    stdout st' = (stdout st ++ ["Произошла ошибка: " +:+ str e])%list /\
    config st' = config st /\
    (provider_log st' = provider_log st \/
     exists r, provider_log st' = (provider_log st ++ [r])%list).
Proof.
  intros Hfail.
  assert (exists st1, get_image_try request st = (inl e, st1)) as [st1 Htry].
  { unfold_py.
    inversion Hfail as
      [e0 Hb | b s e0 Hb Hs Hd | b s Hb Hs Hd | b s d rest e0 Hb Hs Hd Hi
       | b s d rest image e0 Hb Hs Hd Hi Ho
       | b s d rest image e0 Hb Hs Hd Hi Ho He]; subst;
      rewrite Hb; try (rewrite Hs, (EVALSCRIPTS_truthy _ _ Hs); simpl;
        fold (provider_request (config st) b s); rewrite Hd; simpl);
      try (rewrite Hi; simpl); try (rewrite Ho; simpl);
      try (rewrite He; simpl); eexists; reflexivity. }
  pose proof (get_image_try_frame request st) as [Hconfig Hstdout].
  pose proof (get_image_try_provider_log request st) as Hlog.
  rewrite Htry in Hconfig, Hstdout, Hlog. simpl in *.
  eexists. split; [by apply get_image_raises|]. simpl.
  rewrite Hstdout. auto.
Qed.

(** C4. When [get_image] returns, the working directory is the one it
    started with except that [last_image.png] now holds the bytes being
    returned, and those bytes are the PNG encoding of the image the
    provider has just answered with. *)
Theorem get_image_overwrites_last_image request st r st' :
  get_image request st = (inr r, st') ->
  files st' = <["last_image.png" := content r]> (files st) /\
  files st' !! "last_image.png" = Some (content r) /\
  (forall p, p <> "last_image.png" -> files st' !! p = files st !! p) /\
  exists sentinel_bbox script image_data rest image,
    get_data (provider_log st) (provider_request (config st) sentinel_bbox script)
      = inr (image_data :: rest) /\
    Image_fromarray image_data = inr image /\
    Image_encode image PNG = inr (content r).
Proof.
  intros H. rewrite (get_image_stored _ _ _ _ H).
  split; [done|]. split; [by rewrite lookup_insert_eq|].
  split; [by intros p Hp; rewrite lookup_insert_ne|].
  apply get_image_returns, get_image_try_ok in H
    as (b & script & d & rest & image & _ & _ & Hd & Hi & _ & He & _).
  by exists b, script, d, rest, image.
Qed.

(** C3. If POST /get-image answers 200, its body is a byte string, and a
    GET /download-image served next answers 200 with exactly those
    bytes (as [image/png], attachment [sentinel_snapshot.png]). *)
Theorem download_returns_streamed_png payload st r st' :
  post_get_image payload st = (r, st') ->
  status r = 200 ->
  exists data,
    body r = BodyBytes data /\
    fst (get_download_image st') =
      {| status := 200; content_type := "image/png";
         content_disposition :=
           Some ("attachment; filename=" +:+ dq +:+ "sentinel_snapshot.png" +:+ dq);
         body := BodyBytes data |}.
Proof.
  unfold post_get_image. intros Hpost Hstatus.
  destruct (BboxRequest_validate payload) as [request|].
  2: { injection Hpost as <- <-. discriminate. }
  destruct (get_image_outcome request st) as [(r0 & st0 & Hok)|(e & st0 & Hko)].
  2: { rewrite Hko in Hpost. injection Hpost as <- <-. discriminate. }
  rewrite Hok in Hpost. injection Hpost as <- <-.
  apply get_image_stored in Hok.
  exists (content r0). split; [reflexivity|].
  unfold get_download_image, download_image, ret, send_file. simpl.
  by rewrite Hok, lookup_insert_eq.
Qed.

(** C6. For a body accepted by the model whose bounding box the
    [BBox] constructor accepts, the handler issues exactly one provider
    request: the script mapped to the request's [layer_type] in
    [EVALSCRIPTS], one input (Sentinel-2 L1C, 2025-04-01 to 2025-09-30),
    one PNG response, size 512 by 512, the constructed box and the
    process configuration. *)
Theorem provider_request_is_fixed payload request st sentinel_bbox :
  BboxRequest_validate payload = Some request ->
  BBox_init (bbox request) WGS84 = inr sentinel_bbox ->
  exists script,
    EVALSCRIPTS !! layer_type request = Some script /\
    (layer_type request = "true_color" /\ script = evalscript_true_color \/
     layer_type request = "ndvi" /\ script = evalscript_ndvi) /\
    provider_log (snd (post_get_image payload st)) =
      (provider_log st ++
       [ {| evalscript := script;
            input_data :=
              [ {| data_collection := SENTINEL2_L1C;
                   time_interval := ("2025-04-01", "2025-09-30") |} ];
            responses := [ {| identifier := "default"; response_format := PNG |} ];
            request_bbox := sentinel_bbox;
            size := [512; 512];
            request_config := config st |} ])%list.
Proof.
  intros Hvalid Hbbox.
  destruct (BboxRequest_validate_layer _ _ Hvalid) as [script Hscript].
  exists script. split; [exact Hscript|].
  split; [by apply EVALSCRIPTS_lookup_Some|].
  unfold post_get_image. rewrite Hvalid.
  assert (provider_log (snd (get_image request st)) =
          (provider_log st ++ [provider_request (config st) sentinel_bbox script])%list)
    as Hlog.
  { unfold get_image, try_except, bind, print, raise.
    assert (provider_log (snd (get_image_try request st)) =
            (provider_log st ++
             [provider_request (config st) sentinel_bbox script])%list) as Htry.
    { unfold_py. rewrite Hbbox, Hscript, (EVALSCRIPTS_truthy _ _ Hscript). simpl.
      fold (provider_request (config st) sentinel_bbox script).
      destruct (get_data (provider_log st) _) as [e|[|image_data rest]];
        simpl; try reflexivity.
      destruct (Image_fromarray image_data) as [e|image]; simpl; [reflexivity|].
      destruct (open_wb (files st) "last_image.png"); simpl; [reflexivity|].
      destruct (Image_encode image PNG); reflexivity. }
    destruct (get_image_try request st) as [[e|r] st1]; exact Htry. }
  destruct (get_image request st) as [[e|r] st1]; exact Hlog.
Qed.

(** C1, as the code has it.  A body whose [layer_type] member is neither
    the string "true_color" nor the string "ndvi" (or is missing) never
    reaches the handler: the model rejects it and the response is the
    framework's validation error, status 422 and not 400, with the
    process left as it was. *)
Theorem unknown_layer_type_is_rejected_422 payload st :
  body_layer_type payload <> Some (JString "true_color") ->
  body_layer_type payload <> Some (JString "ndvi") ->
  post_get_image payload st = (validation_error_response, st) /\
  status (fst (post_get_image payload st)) = 422 /\
  status (fst (post_get_image payload st)) <> 400.
Proof.
  intros Htc Hndvi.
  assert (BboxRequest_validate payload = None) as Hnone.
  { destruct (BboxRequest_validate payload) as [request|] eqn:Hvalid; [|done].
    apply BboxRequest_validate_Some in Hvalid as (_ & _ & _ & Hlayer & [Heq|Heq]);
      rewrite Heq in Hlayer; contradiction. }
  unfold post_get_image. rewrite Hnone. simpl. repeat split. lia.
Qed.

(** C10. [download_image] returns the same file response in every state
    (path [last_image.png], file name [sentinel_snapshot.png], media
    type [image/png]) and changes nothing; serving GET /download-image
    leaves the process as it was, and when the file exists the response
    is 200 with the file's bytes under those headers. *)
Theorem download_image_is_read_only st :
  download_image st =
    (inr {| path := "last_image.png"; filename := "sentinel_snapshot.png";
            file_media_type := "image/png" |}, st) /\
  snd (get_download_image st) = st /\
  (forall data,
     files st !! "last_image.png" = Some data ->
     fst (get_download_image st) =
       {| status := 200; content_type := "image/png";
          content_disposition :=
            Some ("attachment; filename=" +:+ dq +:+ "sentinel_snapshot.png" +:+ dq);
          body := BodyBytes data |}).
Proof.
  split; [reflexivity|]. split; [reflexivity|].
  intros data Hfile.
  unfold get_download_image, download_image, ret, send_file. simpl.
  by rewrite Hfile.
Qed.

(** C2, evaluated on the code.  With no [last_image.png] in the working
    directory the handler still returns its file response, raising
    nothing; the failure only happens when the framework sends that
    response, and the status is 500, not 404. *)
Theorem download_image_missing_file_is_500 st :
  files st !! "last_image.png" = None ->
  (exists r, download_image st = (inr r, st)) /\
  status (fst (get_download_image st)) = 500 /\
  status (fst (get_download_image st)) <> 404.
Proof.
  intros Hfile. split; [by eexists|].
  unfold get_download_image, download_image, ret, send_file. simpl.
  rewrite Hfile. simpl. split; [reflexivity|lia].
Qed.

(** ** The life of a process *)

Lemma serve_config c st : config (snd (serve c st)) = config st.
Proof.
  destruct c as [payload|]; simpl; [|reflexivity].
  unfold post_get_image.
  destruct (BboxRequest_validate payload) as [request|]; [|reflexivity].
  pose proof (get_image_config request st) as H.
  by destruct (get_image request st) as [[e|r] st'].
Qed.

Lemma serve_all_config cs : forall st, config (snd (serve_all cs st)) = config st.
Proof.
  induction cs as [|c cs IH]; intros st; simpl; [reflexivity|].
  pose proof (serve_config c st) as Hc.
  destruct (serve c st) as [r st1]. simpl in Hc.
  specialize (IH st1). destruct (serve_all cs st1) as [rs st2]. simpl in *.
  congruence.
Qed.

(** C7. With [env] the environment after [load_dotenv]: if [ClientID] or
    [ClientSecret] is unset or empty there, start-up raises [ValueError]
    and there is no process; otherwise start-up yields a process whose
    configuration carries the two values, and that configuration is the
    same after any sequence of requests. *)
Theorem startup_requires_credentials
    (environ dotenv : gmap string string) (cwd : gmap string (list byte)) :
  let env := load_dotenv environ dotenv in
  (missing_or_empty (env !! "ClientID") \/
   missing_or_empty (env !! "ClientSecret") ->
   exists message, startup environ dotenv cwd = inl (ValueError message)) /\
  (~ missing_or_empty (env !! "ClientID") ->
   ~ missing_or_empty (env !! "ClientSecret") ->
   exists st0,
     startup environ dotenv cwd = inr st0 /\
     sh_client_id (config st0) = env !! "ClientID" /\
     sh_client_secret (config st0) = env !! "ClientSecret" /\
     forall cs, config (snd (serve_all cs st0)) = config st0).
Proof.
  intros env. unfold startup, os_getenv. fold env.
  split.
  - intros [H|H]; apply truthy_false in H; rewrite H; simpl.
    + by eexists.
    + rewrite orb_true_r. by eexists.
  - intros Hid Hsecret.
    destruct (truthy (env !! "ClientID")) eqn:Tid;
      [|by apply truthy_false in Tid].
    destruct (truthy (env !! "ClientSecret")) eqn:Tsecret;
      [|by apply truthy_false in Tsecret].
    simpl. eexists. split; [reflexivity|]. simpl.
    split; [reflexivity|]. split; [reflexivity|].
    intros cs. apply serve_all_config.
Qed.

(** ** Further properties of the two routes *)

(** The three ways POST /get-image ends. *)
Lemma post_get_image_cases payload st :
  (BboxRequest_validate payload = None /\
   post_get_image payload st = (validation_error_response, st)) \/
  (exists request r st',
     BboxRequest_validate payload = Some request /\
     get_image_try request st = (inr r, st') /\
     post_get_image payload st = (send_streaming r, st')) \/
  (exists request e st1,
     BboxRequest_validate payload = Some request /\
     get_image_try request st = (inl e, st1) /\
     post_get_image payload st =
       (exception_response (HTTPException 500 (str e)),
        printed ("Произошла ошибка: " +:+ str e) st1)).
Proof.
  unfold post_get_image.
  destruct (BboxRequest_validate payload) as [request|]; [|by left].
  right. destruct (get_image_try request st) as [[e|r] st1] eqn:Htry.
  - right. exists request, e, st1. rewrite (get_image_raises _ _ _ _ Htry). done.
  - left. exists request, r, st1.
    pose proof (proj2 (get_image_returns _ _ _ _) Htry) as Hret.
    by rewrite Hret.
Qed.

(** What the [try] block leaves in the working directory. *)
Lemma get_image_try_files request st :
  match fst (get_image_try request st) with
  | inr r =>
      files (snd (get_image_try request st)) =
        <["last_image.png" := content r]> (files st)
  | inl e =>
      files (snd (get_image_try request st)) = files st \/
      (exists image, Image_encode image PNG = inl e) /\
      files (snd (get_image_try request st)) =
        torn_save (files st) "last_image.png"
  end.
Proof.
  unfold_py.
  destruct (BBox_init (bbox request) WGS84) as [e|sentinel_bbox]; [by left|].
  destruct (negb (truthy (EVALSCRIPTS !! layer_type request))); [by left|].
  simpl.
  destruct (get_data (provider_log st) _) as [e|[|image_data rest]];
    simpl; try by left.
  destruct (Image_fromarray image_data) as [e|image]; simpl; [by left|].
  destruct (open_wb (files st) "last_image.png"); simpl; [by left|].
  destruct (Image_encode image PNG) as [e|data] eqn:Henc; simpl; [|done].
  right. split; [by exists image|done].
Qed.

(** X1. The values the model accepts for [layer_type] are exactly the
    keys of [EVALSCRIPTS] with a non-empty script: for a string [k],
    the [Literal] check passes if and only if [EVALSCRIPTS.get(k)] is
    truthy.  The two scripts differ. *)
Theorem literal_matches_EVALSCRIPTS (k : string) :
  (validate_literal ["true_color"; "ndvi"] (JString k) = Some k <->
   truthy (EVALSCRIPTS !! k) = true) /\
  evalscript_true_color <> evalscript_ndvi.
Proof.
  split; [|discriminate]. unfold validate_literal. split.
  - case_bool_decide as Hin; [|discriminate]. intros _.
    apply elem_of_cons in Hin as [->|Hin];
      [by rewrite EVALSCRIPTS_true_color|].
    apply list_elem_of_singleton in Hin as ->. by rewrite EVALSCRIPTS_ndvi.
  - intros Htruthy.
    destruct (EVALSCRIPTS !! k) as [script|] eqn:Hscript; [|discriminate].
    rewrite bool_decide_eq_true_2; [done|].
    apply EVALSCRIPTS_lookup_Some in Hscript as [[-> _]|[-> _]].
    + apply elem_of_cons. by left.
    + apply elem_of_cons. right. by apply list_elem_of_singleton.
Qed.

Lemma mapM_validate_float_numbers (coords : list Float) :
  mapM validate_float (map JNumber coords) = Some coords.
Proof.
  apply mapM_Some_2. induction coords as [|x coords IH]; simpl.
  - constructor.
  - constructor; [reflexivity|exact IH].
Qed.

(** X2. The model puts no constraint on the number of coordinates: an
    object whose [bbox] member is an array of numbers of any length
    (the empty array included) and whose [layer_type] member is one of
    the two names validates to the request with those coordinates and
    that name, whatever other members the object has. *)
Theorem BboxRequest_validate_numbers fields (coords : list Float) (layer : string) :
  json_get "bbox" fields = Some (JArray (map JNumber coords)) ->
  json_get "layer_type" fields = Some (JString layer) ->
  layer = "true_color" \/ layer = "ndvi" ->
  BboxRequest_validate (JObject fields) =
    Some {| bbox := coords; layer_type := layer |}.
Proof.
  intros Hbbox Hlayer Hname. unfold BboxRequest_validate.
  rewrite Hbbox, Hlayer. simpl. rewrite mapM_validate_float_numbers. simpl.
  destruct Hname as [-> | ->]; reflexivity.
Qed.

(** X3. When every library call succeeds, POST /get-image answers 200
    [image/png] with the PNG encoding of the first array of the
    provider's answer (the others are ignored), stores those bytes in
    [last_image.png], prints nothing and has issued one provider
    request. *)
Theorem post_get_image_succeeds payload request st
    sentinel_bbox script image_data rest image data :
  BboxRequest_validate payload = Some request ->
  BBox_init (bbox request) WGS84 = inr sentinel_bbox ->
  EVALSCRIPTS !! layer_type request = Some script ->
  get_data (provider_log st) (provider_request (config st) sentinel_bbox script)
    = inr (image_data :: rest) ->
  Image_fromarray image_data = inr image ->
  open_wb (files st) "last_image.png" = None ->
  Image_encode image PNG = inr data ->
  post_get_image payload st =
    ({| status := 200; content_type := "image/png";
        content_disposition := None; body := BodyBytes data |},
     {| files := <["last_image.png" := data]> (files st);
        config := config st;
        stdout := stdout st;
        provider_log :=
          (provider_log st ++
           [provider_request (config st) sentinel_bbox script])%list |}).
Proof.
  intros Hvalid Hbbox Hscript Hdata Himage Hopen Henc.
  assert (get_image_try request st =
          (inr {| content := data; streaming_media_type := "image/png" |},
           {| files := <["last_image.png" := data]> (files st);
              config := config st;
              stdout := stdout st;
              provider_log :=
                (provider_log st ++
                 [provider_request (config st) sentinel_bbox script])%list |}))
    as Htry.
  { unfold_py. rewrite Hbbox, Hscript, (EVALSCRIPTS_truthy _ _ Hscript). simpl.
    fold (provider_request (config st) sentinel_bbox script).
    rewrite Hdata. simpl. rewrite Himage. simpl. rewrite Hopen, Henc.
    reflexivity. }
  apply get_image_returns in Htry.
  unfold post_get_image. by rewrite Hvalid, Htry.
Qed.

(** X4. For a request whose body has been decoded to a JSON value,
    POST /get-image answers 200, 422 or 500 and nothing else.  A 200 is
    [image/png] with a byte body and no content disposition; every
    other answer is JSON. *)
Theorem post_get_image_statuses payload st :
  (status (fst (post_get_image payload st)) = 200 \/
   status (fst (post_get_image payload st)) = 422 \/
   status (fst (post_get_image payload st)) = 500) /\
  (status (fst (post_get_image payload st)) = 200 ->
   content_type (fst (post_get_image payload st)) = "image/png" /\
   content_disposition (fst (post_get_image payload st)) = None /\
   exists data, body (fst (post_get_image payload st)) = BodyBytes data) /\
  (status (fst (post_get_image payload st)) <> 200 ->
   content_type (fst (post_get_image payload st)) = "application/json").
Proof.
  destruct (post_get_image_cases payload st)
    as [[_ ->]|[(request & r & st' & _ & Htry & ->)
               |(request & e & st1 & _ & _ & ->)]]; simpl.
  - split; [auto|]. split; [discriminate|done].
  - apply get_image_try_ok in Htry
      as (_ & _ & _ & _ & _ & _ & _ & _ & _ & _ & _ & Hmedia & _).
    split; [auto|]. split; [|done].
    intros _. split; [exact Hmedia|]. split; [done|]. by eexists.
  - split; [auto|]. split; [discriminate|done].
Qed.

(** X5. A request whose coordinates the [BBox] constructor refuses is
    answered 500 with the constructor's message before anything else
    happens: the provider is not contacted and no file is written; the
    only change to the process is the printed line. *)
Theorem bbox_refused_before_provider payload request st e :
  BboxRequest_validate payload = Some request ->
  BBox_init (bbox request) WGS84 = inl e ->
  post_get_image payload st =
    ({| status := 500; content_type := "application/json";
        content_disposition := None; body := BodyDetail (str e) |},
     printed ("Произошла ошибка: " +:+ str e) st).
Proof.
  intros Hvalid Hbbox.
  assert (get_image_try request st = (inl e, st)) as Htry.
  { unfold_py. by rewrite Hbbox. }
  unfold post_get_image. rewrite Hvalid, (get_image_raises _ _ _ _ Htry).
  reflexivity.
Qed.


(** X11. The text returned to the caller is the text printed: a 500
    answer of POST /get-image carries a detail, and exactly one line,
    the error prefix followed by that detail, has been printed; any
    other answer prints nothing. *)
Theorem error_detail_is_printed payload st :
  (status (fst (post_get_image payload st)) = 500 ->
   exists message,
     body (fst (post_get_image payload st)) = BodyDetail message /\
     stdout (snd (post_get_image payload st)) =
       (stdout st ++ ["Произошла ошибка: " +:+ message])%list) /\
  (status (fst (post_get_image payload st)) <> 500 ->
   stdout (snd (post_get_image payload st)) = stdout st).
Proof.
  destruct (post_get_image_cases payload st)
    as [[_ ->]|[(request & r & st' & _ & Htry & ->)
               |(request & e & st1 & _ & Htry & ->)]]; simpl.
  - split; [discriminate|done].
  - pose proof (get_image_try_frame request st) as [_ Hout].
    rewrite Htry in Hout. split; [discriminate|done].
  - pose proof (get_image_try_frame request st) as [_ Hout].
    rewrite Htry in Hout. simpl in Hout. split; [|done].
    intros _. exists (str e). by rewrite Hout.
Qed.

(** ** Sequences of requests *)

Lemma serve_files_other c st p :
  (forall f q, q <> "last_image.png" ->
     torn_save f "last_image.png" !! q = f !! q) ->
  p <> "last_image.png" ->
  files (snd (serve c st)) !! p = files st !! p.
Proof.
  intros Htorn Hp. destruct c as [payload|]; simpl; [|reflexivity].
  destruct (post_get_image_cases payload st)
    as [[_ ->]|[(request & r & st' & _ & Htry & ->)
               |(request & e & st1 & _ & Htry & ->)]]; simpl; [done| |];
    pose proof (get_image_try_files request st) as Hcases;
    rewrite Htry in Hcases; simpl in Hcases.
  - rewrite Hcases. by rewrite lookup_insert_ne.
  - destruct Hcases as [->|[_ ->]]; [done|]. by apply Htorn.
Qed.

(** X8. The service writes to no file but [last_image.png]: provided a
    save that raises disturbs only the path it was saving to, every
    other path of the working directory holds after any sequence of
    requests what it held before. *)
Theorem only_last_image_is_written cs st p :
  (forall f q, q <> "last_image.png" ->
     torn_save f "last_image.png" !! q = f !! q) ->
  p <> "last_image.png" ->
  files (snd (serve_all cs st)) !! p = files st !! p.
Proof.
  intros Htorn Hp. revert st.
  induction cs as [|c cs IH]; intros st; simpl; [reflexivity|].
  pose proof (serve_files_other c st p Htorn Hp) as Hstep.
  destruct (serve c st) as [r st1]. simpl in Hstep.
  specialize (IH st1). destruct (serve_all cs st1) as [rs st2]. simpl in *.
  congruence.
Qed.

Lemma serve_provider_log c st :
  exists extra,
    provider_log (snd (serve c st)) = (provider_log st ++ extra)%list /\
    (length extra <= count_posts [c])%nat.
Proof.
  destruct c as [payload|]; simpl.
  2: { exists []. rewrite app_nil_r. split; [done|simpl; lia]. }
  destruct (post_get_image_cases payload st)
    as [[_ ->]|[(request & r & st' & _ & Htry & ->)
               |(request & e & st1 & _ & Htry & ->)]]; simpl.
  - exists []. rewrite app_nil_r. split; [done|simpl; lia].
  - destruct (get_image_try_provider_log request st) as [Hlog|[x Hlog]];
      rewrite Htry in Hlog; simpl in Hlog; rewrite Hlog.
    + exists []. rewrite app_nil_r. split; [done|simpl; lia].
    + exists [x]. split; [done|simpl; lia].
  - destruct (get_image_try_provider_log request st) as [Hlog|[x Hlog]];
      rewrite Htry in Hlog; simpl in Hlog; rewrite Hlog.
    + exists []. rewrite app_nil_r. split; [done|simpl; lia].
    + exists [x]. split; [done|simpl; lia].
Qed.

(** X9. Provider traffic is append-only and bounded by the number of
    POST /get-image requests served: after any sequence of requests the
    log of provider requests is the old log followed by at most one new
    request per POST; GET /download-image never contacts the provider,
    and nothing is retried. *)
Theorem provider_traffic_bound cs st :
  exists extra,
    provider_log (snd (serve_all cs st)) = (provider_log st ++ extra)%list /\
    (length extra <= count_posts cs)%nat.
Proof.
  revert st. induction cs as [|c cs IH]; intros st; simpl.
  - exists []. rewrite app_nil_r. split; [done|simpl; lia].
  - destruct (serve_provider_log c st) as (extra1 & Hlog1 & Hlen1).
    destruct (serve c st) as [r st1]. simpl in Hlog1.
    destruct (IH st1) as (extra2 & Hlog2 & Hlen2).
    destruct (serve_all cs st1) as [rs st2]. simpl in *.
    exists (extra1 ++ extra2)%list. split.
    + by rewrite Hlog2, Hlog1, app_assoc.
    + rewrite length_app. destruct c; simpl in *; lia.
Qed.

(** X10. The last image outlives the process: a process started in a
    directory that already holds [last_image.png] serves that file on
    GET /download-image without any render having taken place. *)
Theorem restart_serves_existing_image
    (environ dotenv : gmap string string) (cwd : gmap string (list byte))
    st0 data :
  startup environ dotenv cwd = inr st0 ->
  cwd !! "last_image.png" = Some data ->
  get_download_image st0 =
    ({| status := 200; content_type := "image/png";
        content_disposition :=
          Some ("attachment; filename=" +:+ dq +:+ "sentinel_snapshot.png" +:+ dq);
        body := BodyBytes data |}, st0).
Proof.
  unfold startup. intros Hstart Hfile.
  destruct (negb _ || negb _); [discriminate|].
  injection Hstart as <-.
  unfold get_download_image, download_image, ret, send_file. simpl.
  by rewrite Hfile.
Qed.

(** X12. A variable of the environment takes precedence over the [.env]
    file even when it is empty: if [ClientID] or [ClientSecret] is set
    to the empty string in the environment, start-up fails whatever the
    [.env] file holds; and when start-up succeeds, each credential is
    the environment's value if the environment defines the variable and
    the [.env] value otherwise. *)
Theorem environment_precedes_dotenv
    (environ dotenv : gmap string string) (cwd : gmap string (list byte)) :
  (environ !! "ClientID" = Some "" \/ environ !! "ClientSecret" = Some "" ->
   exists message, startup environ dotenv cwd = inl (ValueError message)) /\
  (forall st0,
     startup environ dotenv cwd = inr st0 ->
     sh_client_id (config st0) =
       match environ !! "ClientID" with
       | Some v => Some v
       | None => dotenv !! "ClientID"
       end /\
     sh_client_secret (config st0) =
       match environ !! "ClientSecret" with
       | Some v => Some v
       | None => dotenv !! "ClientSecret"
       end).
Proof.
  unfold startup, os_getenv, load_dotenv. split.
  - intros [H|H]; rewrite (lookup_union_Some_l _ _ _ _ H); simpl.
    + by eexists.
    + rewrite orb_true_r. by eexists.
  - intros st0 Hstart.
    destruct (negb _ || negb _); [discriminate|].
    injection Hstart as <-. simpl.
    rewrite !lookup_union.
    split.
    + by destruct (environ !! "ClientID"), (dotenv !! "ClientID").
    + by destruct (environ !! "ClientSecret"), (dotenv !! "ClientSecret").
Qed.

(** X7. Only the last render is kept: after two renders that both
    return, the working directory is the original one with
    [last_image.png] holding the second result, and GET /download-image
    serves the second result; nothing of the first remains. *)
Theorem second_render_replaces_first request1 request2 st r1 st1 r2 st2 :
  get_image request1 st = (inr r1, st1) ->
  get_image request2 st1 = (inr r2, st2) ->
  files st2 = <["last_image.png" := content r2]> (files st) /\
  body (fst (get_download_image st2)) = BodyBytes (content r2).
Proof.
  intros H1 H2.
  apply get_image_stored in H1. apply get_image_stored in H2.
  rewrite H1, insert_insert_eq in H2. split; [exact H2|].
  unfold get_download_image, download_image, ret, send_file. simpl.
  by rewrite H2, lookup_insert_eq.
Qed.

(** ** Malformed bounding boxes *)

(** An entry the model cannot read makes the model reject the body. *)
Lemma unreadable_entry_rejected payload st items v :
  body_bbox payload = Some (JArray items) ->
  v ∈ items ->
  validate_float v = None ->
  post_get_image payload st = (validation_error_response, st).
Proof.
  intros Hitems Hv Hfloat. unfold post_get_image.
  destruct (BboxRequest_validate payload) as [request|] eqn:Hvalid; [|done].
  apply BboxRequest_validate_Some in Hvalid as (items' & Hitems' & Hmap & _).
  rewrite Hitems in Hitems'. injection Hitems' as <-.
  apply mapM_Some_1 in Hmap.
  apply list_elem_of_lookup in Hv as [i Hi].
  destruct (Forall2_lookup_l _ _ _ _ _ Hmap Hi) as (x & _ & Hx).
  congruence.
Qed.

(** C8, as the code has it.  For a body whose [bbox] member is an array:

    - an entry that is [null], an array or an object, or a string or a
      boolean that the model's float coercion refuses, makes the model
      reject the body: 422, the handler does not run, the process is
      unchanged;
    - the model does not look at the number of entries: a body it
      accepts reaches the handler with as many coordinates as the array
      has entries, and if the [BBox] constructor raises on them the
      answer is 500 with the constructor's message, the provider
      untouched; so when the constructor refuses every list whose length
      is not 4, an array of another length is answered 422 or 500;
    - the status is never 400, and it is 200 only if the model read
      every entry as a float (a string or boolean the coercion accepts
      counts as its number) and the [BBox] constructor accepted the
      list. *)
Theorem malformed_bbox_response payload st items :
  body_bbox payload = Some (JArray items) ->
  (forall v, v ∈ items -> json_null_or_compound v ->
     post_get_image payload st = (validation_error_response, st)) /\
  (forall s, JString s ∈ items -> str_to_float s = None ->
     post_get_image payload st = (validation_error_response, st)) /\
  (forall b, JBool b ∈ items -> bool_to_float b = None ->
     post_get_image payload st = (validation_error_response, st)) /\
  (forall request,
     BboxRequest_validate payload = Some request ->
     length (bbox request) = length items /\
     forall e,
       BBox_init (bbox request) WGS84 = inl e ->
       post_get_image payload st =
         ({| status := 500; content_type := "application/json";
             content_disposition := None; body := BodyDetail (str e) |},
          printed ("Произошла ошибка: " +:+ str e) st)) /\
  ((forall coords crs, length coords <> 4%nat ->
      exists e, BBox_init coords crs = inl e) ->
   length items <> 4%nat ->
   status (fst (post_get_image payload st)) = 422 \/
   status (fst (post_get_image payload st)) = 500) /\
  status (fst (post_get_image payload st)) <> 400 /\
  (status (fst (post_get_image payload st)) = 200 ->
   exists request sentinel_bbox,
     BboxRequest_validate payload = Some request /\
     mapM validate_float items = Some (bbox request) /\
     BBox_init (bbox request) WGS84 = inr sentinel_bbox).
Proof.
  intros Hitems.
  assert (forall request,
            BboxRequest_validate payload = Some request ->
            mapM validate_float items = Some (bbox request)) as Hcoords.
  { intros request Hvalid.
    apply BboxRequest_validate_Some in Hvalid as (items' & Hitems' & Hmap & _).
    rewrite Hitems in Hitems'. by injection Hitems' as <-. }
  assert (forall request e,
            BboxRequest_validate payload = Some request ->
            BBox_init (bbox request) WGS84 = inl e ->
            post_get_image payload st =
              (exception_response (HTTPException 500 (str e)),
               printed ("Произошла ошибка: " +:+ str e) st)) as Hrefused.
  { intros request e Hvalid Hbbox.
    assert (get_image_try request st = (inl e, st)) as Htry.
    { unfold_py. by rewrite Hbbox. }
    unfold post_get_image. by rewrite Hvalid, (get_image_raises _ _ _ _ Htry). }
  split.
  { intros v Hv Hkind. apply (unreadable_entry_rejected _ _ items v); try done.
    by destruct v. }
  split.
  { intros s Hs Hrefuse. by apply (unreadable_entry_rejected _ _ items (JString s)). }
  split.
  { intros b Hb Hrefuse. by apply (unreadable_entry_rejected _ _ items (JBool b)). }
  split.
  { intros request Hvalid. split.
    - symmetry. apply (length_mapM validate_float). by apply Hcoords.
    - intros e Hbbox. by rewrite (Hrefused request e). }
  split.
  { intros Harity Hlen. unfold post_get_image at 1 2.
    destruct (BboxRequest_validate payload) as [request|] eqn:Hvalid;
      [|by left].
    right.
    destruct (Harity (bbox request) WGS84) as [e He].
    { erewrite <- (length_mapM validate_float); [exact Hlen|]. by apply Hcoords. }
    fold (post_get_image payload st). unfold post_get_image in Hrefused.
    rewrite Hvalid in Hrefused. by rewrite (Hrefused request e). }
  destruct (post_get_image_cases payload st)
    as [[_ ->]|[(request & r & st' & Hvalid & Htry & ->)
               |(request & e & st1 & _ & _ & ->)]]; simpl.
  - split; [lia|discriminate].
  - split; [lia|]. intros _.
    apply get_image_try_ok in Htry as (b & _ & _ & _ & _ & Hb & _).
    exists request, b. split; [done|]. split; [by apply Hcoords|done].
  - split; [lia|discriminate].
Qed.

End Properties.

(** * Concrete runs

    The theorems above, applied to the small instance of the libraries. *)

Example validated_request_status_witness :
  BboxRequest_validate (L:=demo_libs) (demo_body [0; 0; 1; 1] "true_color")
    = Some (demo_request [0; 0; 1; 1] "true_color") /\
  status (fst (post_get_image (L:=demo_libs)
                 (demo_body [0; 0; 1; 1] "true_color") demo_process)) <> 400.
Proof.
  split; [reflexivity|].
  apply (validated_request_status_200_or_500 (L:=demo_libs)
           (demo_body [0; 0; 1; 1] "true_color")
           (demo_request [0; 0; 1; 1] "true_color") demo_process).
  reflexivity.
Defined.

Example library_failure_witness :
  library_failure (L:=demo_libs) (demo_request [0; 0; 1; 1] "ndvi") demo_rendered
    (PyError "DownloadFailedException" "429 Too Many Requests") /\
  exists st',
    get_image (L:=demo_libs) (demo_request [0; 0; 1; 1] "ndvi") demo_rendered =
      (inl (HTTPException 500 "429 Too Many Requests"), st').
Proof.
  assert (library_failure (L:=demo_libs) (demo_request [0; 0; 1; 1] "ndvi")
            demo_rendered
            (PyError "DownloadFailedException" "429 Too Many Requests")) as Hfail.
  { apply (provider_failure (L:=demo_libs) _ _ [0; 0; 1; 1] evalscript_ndvi);
      reflexivity. }
  split; [exact Hfail|].
  destruct (library_failure_is_500 (L:=demo_libs) _ _ _ Hfail) as (st' & Hrun & _).
  exists st'. exact Hrun.
Defined.

Example get_image_overwrites_witness :
  get_image (L:=demo_libs) (demo_request [0; 0; 1; 1] "true_color") demo_process =
    (inr {| content := [x89; x01; x02; x03]; streaming_media_type := "image/png" |},
     demo_rendered) /\
  files demo_rendered !! "last_image.png" = Some [x89; x01; x02; x03].
Proof.
  split; [reflexivity|].
  apply (get_image_overwrites_last_image (L:=demo_libs)
           (demo_request [0; 0; 1; 1] "true_color") demo_process
           {| content := [x89; x01; x02; x03]; streaming_media_type := "image/png" |}
           demo_rendered).
  reflexivity.
Defined.

Example download_returns_streamed_witness :
  status (fst (post_get_image (L:=demo_libs)
                 (demo_body [0; 0; 1; 1] "true_color") demo_process)) = 200 /\
  exists data,
    body (fst (post_get_image (L:=demo_libs)
                 (demo_body [0; 0; 1; 1] "true_color") demo_process))
      = BodyBytes data /\
    body (fst (get_download_image demo_rendered)) = BodyBytes data.
Proof.
  split; [reflexivity|].
  destruct (download_returns_streamed_png (L:=demo_libs)
              (demo_body [0; 0; 1; 1] "true_color") demo_process
              (fst (post_get_image (L:=demo_libs)
                      (demo_body [0; 0; 1; 1] "true_color") demo_process))
              demo_rendered eq_refl eq_refl) as (data & Hbody & Hdownload).
  exists data. split; [exact Hbody|].
  rewrite Hdownload. reflexivity.
Defined.

Example provider_request_witness :
  BboxRequest_validate (L:=demo_libs) (demo_body [10; 50; 11; 51] "ndvi")
    = Some (demo_request [10; 50; 11; 51] "ndvi") /\
  BBox_init (Libs:=demo_libs) [10; 50; 11; 51] WGS84 = inr [10; 50; 11; 51] /\
  exists script,
    EVALSCRIPTS !! "ndvi" = Some script /\
    map evalscript
      (provider_log (snd (post_get_image (L:=demo_libs)
                            (demo_body [10; 50; 11; 51] "ndvi") demo_process)))
      = [script].
Proof.
  split; [reflexivity|]. split; [reflexivity|].
  destruct (provider_request_is_fixed (L:=demo_libs)
              (demo_body [10; 50; 11; 51] "ndvi")
              (demo_request [10; 50; 11; 51] "ndvi") demo_process
              [10; 50; 11; 51] eq_refl eq_refl) as (script & Hscript & _ & Hlog).
  exists script. split; [exact Hscript|].
  rewrite Hlog. reflexivity.
Defined.

Example startup_witness :
  (exists message,
     startup (Ty:=demo_types) (delete "ClientSecret" demo_environ) ∅ ∅
       = inl (ValueError message)) /\
  (exists st0, startup (Ty:=demo_types) ∅ demo_environ ∅ = inr st0).
Proof.
  split.
  - apply (startup_requires_credentials (L:=demo_libs)
             (delete "ClientSecret" demo_environ) ∅ ∅).
    right. left. reflexivity.
  - destruct (startup_requires_credentials (L:=demo_libs) ∅ demo_environ ∅)
      as [_ Hstart].
    destruct Hstart as (st0 & Hst0 & _).
    + intros [H|H]; discriminate H.
    + intros [H|H]; discriminate H.
    + exists st0. exact Hst0.
Defined.

(** C1: a body with [layer_type] "foo" is answered 422, not 400. *)
Example unknown_layer_type_counterexample :
  body_layer_type (demo_body [0; 0; 1; 1] "foo") = Some (JString "foo") /\
  status (fst (post_get_image (L:=demo_libs)
                 (demo_body [0; 0; 1; 1] "foo") demo_process)) = 422 /\
  status (fst (post_get_image (L:=demo_libs)
                 (demo_body [0; 0; 1; 1] "foo") demo_process)) <> 400.
Proof. repeat split. discriminate. Qed.

Example unknown_layer_type_witness :
  body_layer_type (demo_body [0; 0; 1; 1] "foo") <> Some (JString "true_color") /\
  body_layer_type (demo_body [0; 0; 1; 1] "foo") <> Some (JString "ndvi") /\
  post_get_image (L:=demo_libs) (demo_body [0; 0; 1; 1] "foo") demo_process
    = (validation_error_response, demo_process).
Proof.
  split; [discriminate|]. split; [discriminate|].
  apply (unknown_layer_type_is_rejected_422 (L:=demo_libs)
           (demo_body [0; 0; 1; 1] "foo") demo_process); discriminate.
Defined.

Example download_image_missing_file_witness :
  files demo_process !! "last_image.png" = None /\
  status (fst (get_download_image demo_process)) = 500.
Proof.
  split; [reflexivity|].
  apply (download_image_missing_file_is_500 demo_process). reflexivity.
Defined.

(** ** Concrete runs of the further properties *)

Example BboxRequest_validate_numbers_witness :
  BboxRequest_validate (L:=demo_libs)
    (JObject [("note", JNull); ("layer_type", JString "ndvi");
              ("bbox", JArray [])])
    = Some (demo_request [] "ndvi").
Proof.
  apply (BboxRequest_validate_numbers (L:=demo_libs)
           [("note", JNull); ("layer_type", JString "ndvi"); ("bbox", JArray [])]
           [] "ndvi"); [reflexivity|reflexivity|by right].
Defined.

Example post_get_image_succeeds_witness :
  fst (post_get_image (L:=demo_libs_steady)
         (demo_body [0; 0; 1; 1] "ndvi") demo_rendered) =
    {| status := 200; content_type := "image/png";
       content_disposition := None; body := BodyBytes [x89; x04; x05] |}.
Proof.
  rewrite (post_get_image_succeeds (L:=demo_libs_steady)
             (demo_body [0; 0; 1; 1] "ndvi") (demo_request [0; 0; 1; 1] "ndvi")
             demo_rendered [0; 0; 1; 1] evalscript_ndvi
             [x04; x05] [[x06]] [x04; x05] [x89; x04; x05]
             eq_refl eq_refl eq_refl eq_refl eq_refl eq_refl eq_refl).
  reflexivity.
Defined.

Example bbox_refused_witness :
  BBox_init (Libs:=demo_libs) [0; 0; 1] WGS84 =
    inl (PyError "TypeError"
           "Expected a valid list or tuple representation of a bbox") /\
  provider_log (snd (post_get_image (L:=demo_libs)
                       (demo_body [0; 0; 1] "ndvi") demo_rendered))
    = provider_log demo_rendered.
Proof.
  split; [reflexivity|].
  rewrite (bbox_refused_before_provider (L:=demo_libs)
             (demo_body [0; 0; 1] "ndvi") (demo_request [0; 0; 1] "ndvi")
             demo_rendered
             (PyError "TypeError"
                "Expected a valid list or tuple representation of a bbox")
             eq_refl eq_refl).
  reflexivity.
Defined.



Example second_render_witness :
  get_image (L:=demo_libs_steady) (demo_request [0; 0; 1; 1] "true_color")
    demo_process =
    (inr {| content := [x89; x01; x02; x03]; streaming_media_type := "image/png" |},
     demo_rendered) /\
  body (fst (get_download_image
               (snd (get_image (L:=demo_libs_steady)
                       (demo_request [2; 2; 3; 3] "ndvi") demo_rendered))))
    = BodyBytes [x89; x04; x05].
Proof.
  split; [reflexivity|].
  apply (second_render_replaces_first (L:=demo_libs_steady)
           (demo_request [0; 0; 1; 1] "true_color")
           (demo_request [2; 2; 3; 3] "ndvi") demo_process
           {| content := [x89; x01; x02; x03]; streaming_media_type := "image/png" |}
           demo_rendered
           {| content := [x89; x04; x05]; streaming_media_type := "image/png" |}
           (snd (get_image (L:=demo_libs_steady)
                   (demo_request [2; 2; 3; 3] "ndvi") demo_rendered)));
    reflexivity.
Defined.

Lemma demo_torn_save (f : gmap string (list byte)) (q : string) :
  q <> "last_image.png" ->
  torn_save (Libs:=demo_libs) f "last_image.png" !! q = f !! q.
Proof. intros Hq. apply lookup_delete_ne. congruence. Defined.

Example only_last_image_witness :
  files (snd (serve_all (L:=demo_libs)
                [PostGetImage (demo_body [0; 0; 1; 1] "true_color");
                 GetDownloadImage;
                 PostGetImage (demo_body [0; 0; 1] "ndvi")]
                demo_restarted)) !! "notes.txt" = Some [x41].
Proof.
  rewrite (only_last_image_is_written (L:=demo_libs) _ demo_restarted "notes.txt"
             demo_torn_save); [reflexivity|discriminate].
Defined.

Example restart_witness :
  startup (Ty:=demo_types) demo_environ ∅ demo_cwd = inr demo_restarted /\
  status (fst (get_download_image demo_restarted)) = 200 /\
  body (fst (get_download_image demo_restarted)) = BodyBytes [x89; x07].
Proof.
  assert (startup (Ty:=demo_types) demo_environ ∅ demo_cwd = inr demo_restarted)
    as Hstart by reflexivity.
  assert (demo_cwd !! "last_image.png" = Some [x89; x07]) as Hfile
    by reflexivity.
  split; [exact Hstart|].
  rewrite (restart_serves_existing_image (Ty:=demo_types) demo_environ ∅ demo_cwd
             demo_restarted [x89; x07] Hstart Hfile).
  split; reflexivity.
Defined.

(** ** Malformed bounding boxes, concretely *)

(** C8: a [bbox] holding a [null] is answered 422, which is neither 500
    nor 400; and with a model that reads digit strings as numbers, a
    [bbox] of four strings is answered 200. *)
Example malformed_bbox_counterexample :
  (body_bbox demo_non_numeric =
     Some (JArray [JString "west"; JNull; JNumber (1 : @Float demo_types);
                   JNumber (1 : @Float demo_types)]) /\
   status (fst (post_get_image (L:=demo_libs) demo_non_numeric demo_process)) = 422 /\
   ~ (status (fst (post_get_image (L:=demo_libs) demo_non_numeric demo_process)) = 500 \/
      status (fst (post_get_image (L:=demo_libs) demo_non_numeric demo_process)) = 400)) /\
  status (fst (post_get_image (L:=demo_libs_lax) demo_string_bbox demo_process)) = 200.
Proof.
  split; [|reflexivity].
  split; [reflexivity|]. split; [reflexivity|].
  intros [H|H]; discriminate H.
Qed.

Lemma demo_BBox_arity (coords : list Z) (crs : CRS) :
  length coords <> 4%nat -> exists e, demo_BBox_init coords crs = inl e.
Proof.
  intros Hlen. unfold demo_BBox_init.
  destruct (Nat.eqb_spec (length coords) 4) as [Heq|_]; [contradiction|].
  eexists. reflexivity.
Defined.

Example malformed_bbox_witness :
  body_bbox (demo_body [0; 0; 1] "ndvi") =
    Some (JArray [JNumber (0 : @Float demo_types); JNumber (0 : @Float demo_types);
                  JNumber (1 : @Float demo_types)]) /\
  status (fst (post_get_image (L:=demo_libs)
                 (demo_body [0; 0; 1] "ndvi") demo_process)) = 500 /\
  post_get_image (L:=demo_libs) demo_non_numeric demo_process =
    (validation_error_response, demo_process) /\
  (status (fst (post_get_image (L:=demo_libs)
                  (demo_body [0; 0; 1; 1; 2] "ndvi") demo_rendered)) = 422 \/
   status (fst (post_get_image (L:=demo_libs)
                  (demo_body [0; 0; 1; 1; 2] "ndvi") demo_rendered)) = 500).
Proof.
  split; [reflexivity|]. split; [|split].
  - destruct (malformed_bbox_response (L:=demo_libs)
                (demo_body [0; 0; 1] "ndvi") demo_process
                [JNumber (0 : @Float demo_types); JNumber (0 : @Float demo_types);
                 JNumber (1 : @Float demo_types)] eq_refl)
      as (_ & _ & _ & Hhandler & _).
    destruct (Hhandler (demo_request [0; 0; 1] "ndvi") eq_refl) as [_ Hrefused].
    rewrite (Hrefused (PyError "TypeError"
                         "Expected a valid list or tuple representation of a bbox")
               eq_refl).
    reflexivity.
  - destruct (malformed_bbox_response (L:=demo_libs) demo_non_numeric demo_process
                [JString "west"; JNull; JNumber (1 : @Float demo_types);
                 JNumber (1 : @Float demo_types)] eq_refl)
      as (Hnull & _).
    apply (Hnull JNull); [|exact I].
    apply elem_of_cons. right. apply elem_of_cons. by left.
  - apply (malformed_bbox_response (L:=demo_libs)
             (demo_body [0; 0; 1; 1; 2] "ndvi") demo_rendered
             (map (fun z => JNumber (z : @Float demo_types)) [0; 0; 1; 1; 2])
             eq_refl); [exact demo_BBox_arity|simpl; lia].
Defined.
